(** * Tamper detection and backup restoration: the record store and its client

    A shallow embedding of the express record store (the second document of
    [src/client/src/App.tsx], from [import express] on) and of the React
    client (the first document), followed by the properties of the
    integrity-verification and restore protocol.

    Modelling conventions.
    - A JavaScript string is a [string]: the sequence of bytes of its UTF-8
      encoding, which is what both [TextEncoder.encode] and
      [Hash.update(string)] feed to SHA-256.
    - 32-bit words are [Z] with the wrap-around written out.
    - The store is the module-level object [database]; handlers take it and
      return the response together with the store they leave behind.
    - The server clock ([new Date().toISOString()]) is an argument of the
      write handler.
    - The client runs against a reachable server: [fetch] itself never
      rejects; everything else that can throw is modelled. *)

From Stdlib Require Import ZArith List String Ascii Bool Lia.
Import ListNotations.
Local Open Scope string_scope.

(* ================================================================== *)
(** ** SHA-256 (FIPS 180-4), the digest both sides compute *)
(* ================================================================== *)

Module SHA256.
Local Open Scope Z_scope.

Definition mask32 : Z := 0xffffffff.

Definition add32 (x y : Z) : Z := Z.land (x + y) mask32.

Definition rotr (n x : Z) : Z :=
  Z.lor (Z.shiftr x n) (Z.land (Z.shiftl x (32 - n)) mask32).

Definition shr (n x : Z) : Z := Z.shiftr x n.

Definition not32 (x : Z) : Z := Z.lxor x mask32.

Definition Ch (x y z : Z) : Z := Z.lxor (Z.land x y) (Z.land (not32 x) z).

Definition Maj (x y z : Z) : Z :=
  Z.lxor (Z.lxor (Z.land x y) (Z.land x z)) (Z.land y z).

Definition bigSigma0 (x : Z) : Z :=
  Z.lxor (Z.lxor (rotr 2 x) (rotr 13 x)) (rotr 22 x).

Definition bigSigma1 (x : Z) : Z :=
  Z.lxor (Z.lxor (rotr 6 x) (rotr 11 x)) (rotr 25 x).

Definition smallSigma0 (x : Z) : Z :=
  Z.lxor (Z.lxor (rotr 7 x) (rotr 18 x)) (shr 3 x).

Definition smallSigma1 (x : Z) : Z :=
  Z.lxor (Z.lxor (rotr 17 x) (rotr 19 x)) (shr 10 x).

(** The round constants are the first 32 bits of the fractional parts of
    the cube roots of the first 64 primes, the initial state those of the
    square roots of the first 8. They are computed rather than tabulated. *)

Definition primes : list Z :=
  [   2;   3;   5;   7;  11;  13;  17;  19;  23;  29;  31;  37;  41;
     43;  47;  53;  59;  61;  67;  71;  73;  79;  83;  89;  97; 101;
    103; 107; 109; 113; 127; 131; 137; 139; 149; 151; 157; 163; 167;
    173; 179; 181; 191; 193; 197; 199; 211; 223; 227; 229; 233; 239;
    241; 251; 257; 263; 269; 271; 277; 281; 283; 293; 307; 311 ].

(** Integer cube root, one bit at a time from bit [bits - 1] down. *)
Fixpoint icbrt_from (bits : nat) (n r : Z) : Z :=
  match bits with
  | O => r
  | S b =>
      let c := r + Z.shiftl 1 (Z.of_nat b) in
      icbrt_from b n (if c * c * c <=? n then c else r)
  end.

Definition icbrt (n : Z) : Z := icbrt_from 40 n 0.

Definition frac_cbrt32 (p : Z) : Z := Z.land (icbrt (Z.shiftl p 96)) mask32.

Definition frac_sqrt32 (p : Z) : Z := Z.land (Z.sqrt (Z.shiftl p 64)) mask32.

Definition K : list Z := Eval vm_compute in map frac_cbrt32 primes.

Definition H0 : list Z := Eval vm_compute in map frac_sqrt32 (firstn 8 primes).

(** Padding: the byte 0x80, zero bytes up to 56 modulo 64, then the bit
    length as a 64-bit big-endian integer. *)

Fixpoint be_bytes (count : nat) (x : Z) : list Z :=
  match count with
  | O => []
  | S c => Z.land (Z.shiftr x (8 * Z.of_nat c)) 0xff :: be_bytes c x
  end.

Definition pad (msg : list Z) : list Z :=
  let len := Z.of_nat (List.length msg) in
  let zeros := Z.to_nat ((55 - len) mod 64) in
  (msg ++ 0x80 :: repeat 0 zeros ++ be_bytes 8 (8 * len))%list.

(** Splitting into chunks of [size] elements. *)
Fixpoint chunks {A : Type} (count size : nat) (l : list A) : list (list A) :=
  match count with
  | O => []
  | S c => firstn size l :: chunks c size (skipn size l)
  end.

Definition be_word (bs : list Z) : Z :=
  fold_left (fun acc b => Z.lor (Z.shiftl acc 8) b) bs 0.

Definition block_words (block : list Z) : list Z :=
  map be_word (chunks 16 4 block).

(** Message schedule. [recent] holds the words computed so far, latest
    first, so that W(t-2), W(t-7), W(t-15), W(t-16) sit at positions
    1, 6, 14 and 15. *)
Fixpoint extend (count : nat) (recent : list Z) : list Z :=
  match count with
  | O => recent
  | S c =>
      let w := add32 (add32 (smallSigma1 (nth 1 recent 0)) (nth 6 recent 0))
                     (add32 (smallSigma0 (nth 14 recent 0)) (nth 15 recent 0)) in
      extend c (w :: recent)
  end.

Definition schedule (block : list Z) : list Z :=
  rev (extend 48 (rev (block_words block))).

Record Regs : Type := mkRegs { ra : Z; rb : Z; rc : Z; rd : Z; re : Z; rf : Z; rg : Z; rh : Z }.

Definition round (s : Regs) (kw : Z * Z) : Regs :=
  let t1 := add32 (add32 (add32 (rh s) (bigSigma1 (re s)))
                         (add32 (Ch (re s) (rf s) (rg s)) (fst kw)))
                  (snd kw) in
  let t2 := add32 (bigSigma0 (ra s)) (Maj (ra s) (rb s) (rc s)) in
  mkRegs (add32 t1 t2) (ra s) (rb s) (rc s) (add32 (rd s) t1) (re s) (rf s) (rg s).

Definition compress (h : Regs) (block : list Z) : Regs :=
  let s := fold_left round (combine K (schedule block)) h in
  mkRegs (add32 (ra h) (ra s)) (add32 (rb h) (rb s)) (add32 (rc h) (rc s))
         (add32 (rd h) (rd s)) (add32 (re h) (re s)) (add32 (rf h) (rf s))
         (add32 (rg h) (rg s)) (add32 (rh h) (rh s)).

Definition initial : Regs :=
  mkRegs (nth 0 H0 0) (nth 1 H0 0) (nth 2 H0 0) (nth 3 H0 0)
         (nth 4 H0 0) (nth 5 H0 0) (nth 6 H0 0) (nth 7 H0 0).

(** The 32 bytes of the digest. *)
Definition digest (msg : list Z) : list Z :=
  let padded := pad msg in
  let h := fold_left compress (chunks (List.length padded / 64) 64 padded) initial in
  flat_map (be_bytes 4) [ra h; rb h; rc h; rd h; re h; rf h; rg h; rh h].

End SHA256.

(* ================================================================== *)
(** ** Strings, bytes and hexadecimal *)
(* ================================================================== *)

(** The UTF-8 bytes of a string. *)
Definition bytes_of_string (s : string) : list Z :=
  map (fun c => Z.of_N (N_of_ascii c)) (list_ascii_of_string s).

Definition hex_digit (d : Z) : ascii :=
  nth (Z.to_nat d) (list_ascii_of_string "0123456789abcdef") "?"%char.

(** [digest("hex")]: two lowercase hexadecimal digits per byte. *)
Definition hex_encode (bs : list Z) : string :=
  string_of_list_ascii
    (flat_map (fun b => [hex_digit (Z.shiftr b 4); hex_digit (Z.land b 15)]) bs).

(** The characters a hexadecimal digest is made of. *)
Definition is_lower_hex (c : ascii) : bool :=
  existsb (Ascii.eqb c) (list_ascii_of_string "0123456789abcdef").

(* ================================================================== *)
(** ** JSON values and HTTP responses *)
(* ================================================================== *)

(** The values that cross the wire or sit in the client's state. Numbers
    and arrays do not occur in this program and are left out. *)
#[warnings="-register-all"]
Inductive Json : Type :=
| JUndefined
| JNull
| JBool (b : bool)
| JString (s : string)
| JObject (fields : list (string * Json)).

(** Property lookup in an object; a missing property is [undefined]. *)
Fixpoint lookup {A : Type} (absent : A) (key : string) (fields : list (string * A)) : A :=
  match fields with
  | [] => absent
  | (k, v) :: rest => if String.eqb key k then v else lookup absent key rest
  end.

(** [a === b]. Objects compare by identity, and no object built or parsed
    here is ever compared with itself. *)
Definition strict_eq (a b : Json) : bool :=
  match a, b with
  | JUndefined, JUndefined => true
  | JNull, JNull => true
  | JBool x, JBool y => Bool.eqb x y
  | JString x, JString y => String.eqb x y
  | _, _ => false
  end.

(** What a response carries: a JSON document ([res.json]) or the HTML page
    of express's default error handler. *)
Inductive Body : Type :=
| JsonBody (j : Json)
| ErrorPage.

Record Response : Type := mkResponse { status : Z; body : Body }.

(** [response.ok] *)
Definition ok (r : Response) : bool := ((200 <=? status r) && (status r <=? 299))%Z.

(** [Array.prototype.push] and [Array.prototype.pop] *)
Definition push {A : Type} (l : list A) (x : A) : list A := (l ++ [x])%list.

Definition pop {A : Type} (l : list A) : option A * list A :=
  match rev l with
  | [] => (None, [])
  | x :: before => (Some x, rev before)
  end.

(* ================================================================== *)
(** ** The record store (express server) *)
(* ================================================================== *)

Module Server.

Record Current : Type := mkCurrent { data : string; integrity : string }.

Record Version : Type :=
  mkVersion { version_data : string; version_integrity : string; timestamp : string }.

Record Database : Type := mkDatabase { current : Current; history : list Version }.

(** [crypto.createHash("sha256").update(data).digest("hex")] *)
Definition generateHash (data : string) : string :=
  hex_encode (SHA256.digest (bytes_of_string data)).

(** The module-level object as declared, and after the initialisation of
    its integrity field. *)
Definition database_declared : Database :=
  mkDatabase (mkCurrent "Hello World" "") [].

Definition database : Database :=
  mkDatabase
    (mkCurrent (data (current database_declared))
               (generateHash (data (current database_declared))))
    (history database_declared).

Definition json_of_current (c : Current) : Json :=
  JObject [("data", JString (data c)); ("integrity", JString (integrity c))].

Definition error_response (code : Z) (msg : string) : Response :=
  mkResponse code (JsonBody (JObject [("error", JString msg)])).

Definition message_response (msg : string) : Response :=
  mkResponse 200 (JsonBody (JObject [("message", JString msg)])).

(** A handler that throws: express answers 500 with its error page. *)
Definition uncaught : Response := mkResponse 500 ErrorPage.

(** [app.get("/")] *)
Definition get_root (db : Database) : Response * Database :=
  (mkResponse 200 (JsonBody (json_of_current (current db))), db).

(** [app.post("/")]; [req_body] is the object [express.json()] parsed and
    [now] the value of [new Date().toISOString()]. *)
Definition post_root (now : string) (req_body : list (string * Json)) (db : Database)
  : Response * Database :=
  let data_ := lookup JUndefined "data" req_body in
  let hash := lookup JUndefined "hash" req_body in
  let currentHash := generateHash (data (current db)) in
  if negb (String.eqb currentHash (integrity (current db))) then
    (error_response 400 "Current data integrity check failed. Update aborted.", db)
  else
    match data_ with
    | JString newData =>
        (* Compute hash of the received data *)
        let computedHash := generateHash newData in
        if negb (strict_eq (JString computedHash) hash) then
          (error_response 400 "Hash mismatch. Data integrity check failed.", db)
        else
          let history' :=
            push (history db)
                 (mkVersion (data (current db)) (integrity (current db)) now) in
          (message_response "Data updated successfully.",
           mkDatabase (mkCurrent newData computedHash) history')
    | _ =>
        (* [Hash.update] throws a TypeError on anything but a string *)
        (uncaught, db)
    end.

(** [app.get("/backup")] *)
Definition get_backup (db : Database) : Response * Database :=
  if Nat.eqb (List.length (history db)) 0 then
    (error_response 404 "No backup available.", db)
  else
    let (previous, history') := pop (history db) in
    match previous with
    | Some p =>
        let current' := mkCurrent (version_data p) (version_integrity p) in
        (mkResponse 200
           (JsonBody (JObject [("message", JString "Backup restored successfully.");
                               ("current", json_of_current current')])),
         mkDatabase current' history')
    | None =>
        (error_response 500 "Failed to restore backup.",
         mkDatabase (current db) history')
    end.

(** [app.post("/tamper")] *)
Definition post_tamper (db : Database) : Response * Database :=
  (message_response "Data has been tampered with!",
   mkDatabase (mkCurrent "Tampered Data!" (integrity (current db))) (history db)).

(** The operations of the store's public protocol, and runs of them. *)
Inductive Op : Type :=
| Read
| Write (now : string) (req_body : list (string * Json))
| Restore.

Definition step (op : Op) (db : Database) : Response * Database :=
  match op with
  | Read => get_root db
  | Write now req_body => post_root now req_body db
  | Restore => get_backup db
  end.

Definition run (ops : list Op) (db : Database) : Database :=
  fold_left (fun d op => snd (step op d)) ops db.

(** [n] restores in a row: the responses in the order received, and the
    store afterwards. *)
Fixpoint restore_times (n : nat) (db : Database) : list Response * Database :=
  match n with
  | O => ([], db)
  | S m =>
      let (r, db1) := get_backup db in
      let (rs, db2) := restore_times m db1 in
      (r :: rs, db2)
  end.

(** The body of a well-formed write request. *)
Definition write_body (d : string) (h : Json) : list (string * Json) :=
  [("data", JString d); ("hash", h)].

(** What a successful restore answers for the version it consumed. *)
Definition current_of (v : Version) : Current :=
  mkCurrent (version_data v) (version_integrity v).

Definition restored_response (v : Version) : Response :=
  mkResponse 200
    (JsonBody (JObject [("message", JString "Backup restored successfully.");
                        ("current", json_of_current (current_of v))])).

(** The record's stored digest is the digest of its payload. *)
Definition consistent (c : Current) : Prop := integrity c = generateHash (data c).

(** The invariant behind the hash binding: the current record and every
    archived version carry the digest of their own payload. *)
Definition well_bound (db : Database) : Prop :=
  consistent (current db) /\ Forall (fun v => consistent (current_of v)) (history db).

(** Every route of the server, the fault-injection hook included, and
    sequences of requests served one after the other. *)
Inductive Request : Type :=
| Call (op : Op)
| Tamper.

Definition serve (r : Request) (db : Database) : Response * Database :=
  match r with
  | Call op => step op db
  | Tamper => post_tamper db
  end.

Definition serve_all (rs : list Request) (db : Database) : Database :=
  fold_left (fun d r => snd (serve r d)) rs db.

(** Every archived version carries the digest of its own payload. *)
Definition archive_bound (db : Database) : Prop :=
  Forall (fun v => consistent (current_of v)) (history db).

(** Sample stores: one with three archived versions, the store after one
    accepted write, and that store after the tamper hook. *)
Definition three_versions : Database :=
  mkDatabase (mkCurrent "d" "hd")
             [mkVersion "a" "ha" "t1"; mkVersion "b" "hb" "t2"; mkVersion "c" "hc" "t3"].

Definition after_update : Database :=
  snd (post_root "2024-05-01T10:00:00.000Z"
                 (write_body "Updated" (JString (generateHash "Updated")))
                 database).

Definition after_tamper : Database := snd (post_tamper after_update).

End Server.

(* ================================================================== *)
(** ** The integrity client (React component) *)
(* ================================================================== *)

Module Client.

(** What the component does that can be observed, in order. *)
Inductive Event : Type :=
| Alert (msg : string)
| ConsoleError (msg : string)
| SetData (v : Json).

(** The server the client talks to, the component's state [data] (declared
    a string, but holding whatever [setData] was given) and the events so
    far. *)
Record World : Type := mkWorld { server : Server.Database; data : Json; trace : list Event }.

(** An asynchronous computation either returns or throws (rejects). *)
Inductive Outcome (A : Type) : Type :=
| Returned (a : A)
| Thrown.
Arguments Returned {A} a.
Arguments Thrown {A}.

Definition Async (A : Type) : Type := World -> Outcome A * World.

Definition ret {A : Type} (a : A) : Async A := fun w => (Returned a, w).

Definition throw {A : Type} : Async A := fun w => (Thrown, w).

Definition bind {A B : Type} (c : Async A) (k : A -> Async B) : Async B :=
  fun w =>
    match c w with
    | (Returned a, w') => k a w'
    | (Thrown, w') => (Thrown, w')
    end.

Definition try_catch {A : Type} (c handler : Async A) : Async A :=
  fun w =>
    match c w with
    | (Returned a, w') => (Returned a, w')
    | (Thrown, w') => handler w'
    end.

Notation "x <- c ;; k" := (bind c (fun x => k))
  (at level 61, c at next level, right associativity).
Notation "c ;;; k" := (bind c (fun _ => k))
  (at level 61, right associativity).

Definition emit (e : Event) : Async unit :=
  fun w => (Returned tt, mkWorld (server w) (data w) (trace w ++ [e])).

Definition alert (msg : string) : Async unit := emit (Alert msg).

Definition console_error (msg : string) : Async unit := emit (ConsoleError msg).

Definition setData (v : Json) : Async unit :=
  fun w => (Returned tt, mkWorld (server w) v (trace w ++ [SetData v])).

Definition read_data : Async Json := fun w => (Returned (data w), w).

(** [fetch]: the request is handled by the server's route. *)
Definition fetch (route : Server.Database -> Response * Server.Database) : Async Response :=
  fun w =>
    let (r, db) := route (server w) in
    (Returned r, mkWorld db (data w) (trace w)).

(** [response.json()] rejects when the body is not JSON. *)
Definition json (r : Response) : Async Json :=
  match body r with
  | JsonBody j => ret j
  | ErrorPage => throw
  end.

(** [const { key } = v]: throws on [undefined] and [null]. *)
Definition destructure (key : string) (v : Json) : Async Json :=
  match v with
  | JObject fields => ret (lookup JUndefined key fields)
  | JUndefined | JNull => throw
  | JBool _ | JString _ => ret JUndefined
  end.

(** String conversion of a value, as in a template literal. *)
Definition to_string (v : Json) : string :=
  match v with
  | JUndefined => "undefined"
  | JNull => "null"
  | JBool true => "true"
  | JBool false => "false"
  | JString s => s
  | JObject _ => "[object Object]"
  end.

(** The argument conversion of [TextEncoder.encode], whose parameter is
    optional with default the empty string. *)
Definition encode_input (v : Json) : string :=
  match v with
  | JUndefined => ""
  | _ => to_string v
  end.

(** [byte.toString(16).padStart(2, "0")] *)
Definition toString16 (b : Z) : string :=
  if (b <? 16)%Z then String (hex_digit b) EmptyString
  else String (hex_digit (Z.shiftr b 4)) (String (hex_digit (Z.land b 15)) EmptyString).

Definition padStart2 (s : string) : string :=
  if Nat.ltb (String.length s) 2 then "0" ++ s else s.

(** [generateHash]: SHA-256 of the encoded input, in hexadecimal. *)
Definition generateHash (input : Json) : string :=
  String.concat ""
    (map (fun byte => padStart2 (toString16 byte))
         (SHA256.digest (bytes_of_string (encode_input input)))).

Definition getData : Async unit :=
  response <- fetch Server.get_root ;;
  j <- json response ;;
  data_ <- destructure "data" j ;;
  setData data_.

(** [JSON.stringify({ data, hash })] as the server parses it: a property
    whose value is [undefined] is dropped, which reads back as [undefined]. *)
Definition updateData (now : string) : Async unit :=
  try_catch
    (data_ <- read_data ;;
     let hash := generateHash data_ in
     response <- fetch (Server.post_root now [("data", data_); ("hash", JString hash)]) ;;
     if ok response then
       alert "Data updated successfully." ;;;
       getData
     else
       j <- json response ;;
       error <- destructure "error" j ;;
       alert ("Failed to update data: " ++ to_string error))
    (console_error "Error updating data:" ;;;
     alert "Failed to update data.").

Definition restoreBackup : Async unit :=
  try_catch
    (backupResponse <- fetch Server.get_backup ;;
     if negb (ok backupResponse) then
       alert "No backup available to restore."
     else
       j <- json backupResponse ;;
       backupData <- destructure "data" j ;;
       setData backupData ;;;
       getData ;;;
       alert "Previous backup restored successfully.")
    (console_error "Error restoring backup:" ;;;
     alert "Failed to restore backup.").

Definition intact_message : string := "Data integrity verified: No tampering detected.".

Definition tampered_message : string :=
  "Data has been tampered with! Restoring previous backup...".

Definition verifyData : Async unit :=
  try_catch
    (response <- fetch Server.get_root ;;
     j <- json response ;;
     serverData <- destructure "data" j ;;
     serverHash <- destructure "integrity" j ;;
     data_ <- read_data ;;
     let localHash := generateHash data_ in
     let serverDataHash := generateHash serverData in
     if strict_eq serverHash (JString localHash)
        && strict_eq serverHash (JString serverDataHash) then
       alert intact_message
     else
       alert tampered_message ;;;
       restoreBackup)
    (console_error "Error verifying data:" ;;;
     alert "Failed to verify data.").

(** The verdict of a verification is what it tells the user first. *)
Inductive Verdict : Type := Intact | Tampered.

Definition verdict_message (v : Verdict) : string :=
  match v with
  | Intact => intact_message
  | Tampered => tampered_message
  end.

Definition classifies (w : World) (v : Verdict) : Prop :=
  exists later, trace (snd (verifyData w)) = (trace w ++ Alert (verdict_message v) :: later)%list.

End Client.

(* ================================================================== *)
(** ** Test vectors *)
(* ================================================================== *)

Example sha256_empty :
  Server.generateHash "" =
  "e3b0c44298fc1c149afbf4c8996fb92427ae41e4649b934ca495991b7852b855".
Proof. vm_compute. reflexivity. Qed.

Example sha256_abc :
  Server.generateHash "abc" =
  "ba7816bf8f01cfea414140de5dae2223b00361a396177a9cb410ff61f20015ad".
Proof. vm_compute. reflexivity. Qed.

Example sha256_hello_world :
  Client.generateHash (JString "Hello World") =
  "a591a6d40bf420404a011733cfb7b190d62c65bf0bcda32b57b277d9ad9f146e".
Proof. vm_compute. reflexivity. Qed.

Example sha256_two_blocks :
  Server.generateHash
    "aaaaaaaaaaaaaaaaaaaaaaaaaaaaaaaaaaaaaaaaaaaaaaaaaaaaaaaaaaaaaaaaaaaaaaaaaaaaaaaaaaaaaaaaaaaaaaaaaaaaaaaaaaaaaaaaaaaaaaaa" =
  "2f3d335432c70b580af0e8e1b3674a7c020d683aa5f73aaaedfdc55af904c21c".
Proof. vm_compute. reflexivity. Qed.

Example sha256_pad_boundary :
  Server.generateHash "aaaaaaaaaaaaaaaaaaaaaaaaaaaaaaaaaaaaaaaaaaaaaaaaaaaaaaaa" =
  "b35439a4ac6f0948b6d6f9e3c6af0f5f590ce20f1bde7090ef7970686ec6738a".
Proof. vm_compute. reflexivity. Qed.

(* ================================================================== *)
(** ** Properties of the record store *)
(* ================================================================== *)

Module ServerFacts.
Import Server.

Arguments generateHash : simpl never.

Lemma pop_push {A : Type} (l : list A) (x : A) : pop (push l x) = (Some x, l).
Proof.
  unfold pop, push. rewrite rev_app_distr. simpl. now rewrite rev_involutive.
Qed.

Lemma pop_nil {A : Type} : pop (@nil A) = (None, []).
Proof. reflexivity. Qed.

Lemma nonempty_snoc {A : Type} (l : list A) :
  l <> [] -> exists before x, l = (before ++ [x])%list.
Proof.
  intros Hl. destruct (exists_last Hl) as (before & x & ->). now exists before, x.
Qed.

Lemma length_snoc_eqb {A : Type} (l : list A) (x : A) :
  Nat.eqb (List.length (l ++ [x])) 0 = false.
Proof. rewrite length_app. simpl. apply Nat.eqb_neq. lia. Qed.

Lemma strict_eq_string (s : string) (v : Json) :
  strict_eq (JString s) v = true <-> v = JString s.
Proof.
  destruct v; simpl; split; intros H; try discriminate.
  - apply String.eqb_eq in H. now subst.
  - injection H as ->. apply String.eqb_refl.
Qed.

(** The two ways the restore handler can go. *)
Lemma get_backup_empty (db : Database) :
  history db = [] -> get_backup db = (error_response 404 "No backup available.", db).
Proof. intros H. unfold get_backup. now rewrite H. Qed.

Lemma get_backup_snoc (c : Current) (h : list Version) (v : Version) :
  get_backup (mkDatabase c (h ++ [v])) =
  (restored_response v, mkDatabase (current_of v) h).
Proof.
  unfold get_backup. cbn [history current].
  rewrite length_snoc_eqb.
  change (h ++ [v])%list with (push h v). now rewrite pop_push.
Qed.

(** The ways the write handler can go. *)
Lemma post_root_corrupted (now : string) (req_body : list (string * Json)) (db : Database) :
  generateHash (data (current db)) <> integrity (current db) ->
  post_root now req_body db =
  (error_response 400 "Current data integrity check failed. Update aborted.", db).
Proof.
  intros H. unfold post_root.
  apply String.eqb_neq in H. now rewrite H.
Qed.

Lemma post_root_checked (now : string) (req_body : list (string * Json)) (db : Database)
      (d : string) :
  consistent (current db) ->
  lookup JUndefined "data" req_body = JString d ->
  post_root now req_body db =
  if strict_eq (JString (generateHash d)) (lookup JUndefined "hash" req_body) then
    (message_response "Data updated successfully.",
     mkDatabase (mkCurrent d (generateHash d))
                (history db ++ [mkVersion (data (current db)) (integrity (current db)) now]))
  else (error_response 400 "Hash mismatch. Data integrity check failed.", db).
Proof.
  intros Hc Hd. unfold post_root, consistent in *.
  rewrite Hd, <- Hc, String.eqb_refl. cbn [negb].
  now destruct (strict_eq _ _).
Qed.

Lemma post_root_not_string (now : string) (req_body : list (string * Json)) (db : Database) :
  (forall d, lookup JUndefined "data" req_body <> JString d) ->
  snd (post_root now req_body db) = db.
Proof.
  intros H. unfold post_root.
  destruct (negb _); [reflexivity|].
  destruct (lookup JUndefined "data" req_body) eqn:E; try reflexivity.
  now destruct (H s).
Qed.

Lemma well_bound_database : well_bound database.
Proof. split; [reflexivity | constructor]. Qed.

Lemma well_bound_step (op : Op) (db : Database) :
  well_bound db -> well_bound (snd (step op db)).
Proof.
  intros [Hc Hh]. destruct op as [|now req_body|]; cbn [step].
  - (* Read *) now split.
  - (* Write *)
    destruct (lookup JUndefined "data" req_body) eqn:Hd;
      try (rewrite post_root_not_string; [now split | intros d; rewrite Hd; discriminate]).
    rewrite (post_root_checked now req_body db s Hc Hd).
    destruct (strict_eq _ _); cbn [snd]; [|now split].
    split; [reflexivity|].
    apply Forall_app. split; [assumption|].
    constructor; [exact Hc | constructor].
  - (* Restore *)
    destruct db as [c hist]. cbn [history current] in *.
    destruct hist as [|v0 h0].
    + rewrite get_backup_empty by reflexivity. now split.
    + destruct (@nonempty_snoc _ (v0 :: h0)) as (h & v & Heq); [discriminate|].
      rewrite Heq in *. rewrite get_backup_snoc. cbn [snd].
      apply Forall_app in Hh as [Hh Hv]. inversion Hv; subst.
      now split.
Qed.

Lemma well_bound_run (ops : list Op) (db : Database) :
  well_bound db -> well_bound (run ops db).
Proof.
  revert db. induction ops as [|op ops IH]; intros db Hdb; cbn [run fold_left].
  - exact Hdb.
  - apply IH. now apply well_bound_step.
Qed.

Lemma restore_times_snoc (consumed : list Version) :
  forall (c : Current) (kept : list Version),
    restore_times (List.length consumed) (mkDatabase c (kept ++ consumed)) =
    (map restored_response (rev consumed),
     mkDatabase (match consumed with [] => c | oldest :: _ => current_of oldest end) kept).
Proof.
  induction consumed as [|v consumed IH] using rev_ind; intros c kept.
  - cbn. now rewrite app_nil_r.
  - rewrite length_app, Nat.add_comm. cbn [List.length Nat.add restore_times].
    rewrite app_assoc, get_backup_snoc, IH, rev_app_distr. cbn [rev app map].
    destruct consumed; reflexivity.
Qed.

End ServerFacts.

(* ================================================================== *)
(** ** The claims about the record store *)
(* ================================================================== *)

Module StoreClaims.
Import Server ServerFacts.

(** C2. After a successful write of [d] with claimed digest [Hash d], on
    any store, a read returns data [d] with integrity [Hash d], the history
    is exactly one entry longer, and its new last entry carries the
    pre-write current record's data and integrity with the timestamp taken
    by this write. *)
Theorem write_then_read (now d : string) (req_body : list (string * Json)) (db : Database) :
  lookup JUndefined "data" req_body = JString d ->
  lookup JUndefined "hash" req_body = JString (generateHash d) ->
  ok (fst (post_root now req_body db)) = true ->
  let db' := snd (post_root now req_body db) in
  let archived := mkVersion (data (current db)) (integrity (current db)) now in
  fst (get_root db') =
    mkResponse 200 (JsonBody (JObject [("data", JString d);
                                       ("integrity", JString (generateHash d))])) /\
  current db' = mkCurrent d (generateHash d) /\
  List.length (history db') = S (List.length (history db)) /\
  history db' = (history db ++ [archived])%list /\
  last (history db') archived = archived /\
  timestamp (last (history db') archived) = now.
Proof.
  intros Hd Hh Hok db' archived. subst db'.
  destruct (String.eqb (generateHash (data (current db))) (integrity (current db))) eqn:Hc.
  - apply String.eqb_eq in Hc. symmetry in Hc.
    rewrite (post_root_checked now req_body db d Hc Hd), Hh in *.
    replace (strict_eq (JString (generateHash d)) (JString (generateHash d))) with true in *
      by (symmetry; now apply strict_eq_string).
    cbn [snd fst get_root current history json_of_current data integrity].
    rewrite length_app, Nat.add_comm, last_last. cbn. repeat split; reflexivity.
  - apply String.eqb_neq in Hc.
    rewrite (post_root_corrupted now req_body db Hc) in Hok. discriminate Hok.
Qed.

Lemma write_then_read_witness :
  let db' := snd (post_root "2024-05-01T10:00:00.000Z"
                            (write_body "Updated" (JString (generateHash "Updated")))
                            database) in
  current db' = mkCurrent "Updated" (generateHash "Updated") /\
  history db' = [mkVersion "Hello World" (generateHash "Hello World")
                           "2024-05-01T10:00:00.000Z"].
Proof.
  pose proof (write_then_read "2024-05-01T10:00:00.000Z" "Updated"
                (write_body "Updated" (JString (generateHash "Updated"))) database
                eq_refl eq_refl) as H.
  destruct H as (_ & Hcur & _ & Hhist & _).
  - vm_compute. reflexivity.
  - split; [exact Hcur | exact Hhist].
Defined.

(** C3. On a store whose current record is consistent, a write whose
    claimed digest differs from the digest of the submitted data fails
    with the hash-mismatch error (400) and leaves the current record and
    the history as they were. *)
Theorem write_hash_mismatch
        (now d : string) (hash : Json) (req_body : list (string * Json)) (db : Database) :
  integrity (current db) = generateHash (data (current db)) ->
  lookup JUndefined "data" req_body = JString d ->
  lookup JUndefined "hash" req_body = hash ->
  hash <> JString (generateHash d) ->
  post_root now req_body db =
    (error_response 400 "Hash mismatch. Data integrity check failed.", db).
Proof.
  intros Hc Hd Hh Hne.
  rewrite (post_root_checked now req_body db d Hc Hd), Hh.
  destruct (strict_eq (JString (generateHash d)) hash) eqn:E; [|reflexivity].
  apply strict_eq_string in E. contradiction.
Qed.

Lemma write_hash_mismatch_witness :
  post_root "2024-05-01T10:00:00.000Z" (write_body "Updated" (JString "deadbeef")) database =
    (error_response 400 "Hash mismatch. Data integrity check failed.", database).
Proof.
  apply (write_hash_mismatch "2024-05-01T10:00:00.000Z" "Updated" (JString "deadbeef")).
  - reflexivity.
  - reflexivity.
  - reflexivity.
  - vm_compute. discriminate.
Defined.

(** C4. On a store whose current record is not consistent, every write
    request, whatever its body, fails with the integrity-check error (400)
    and leaves the current record and the history as they were. *)
Theorem write_integrity_corrupted
        (now : string) (req_body : list (string * Json)) (db : Database) :
  generateHash (data (current db)) <> integrity (current db) ->
  post_root now req_body db =
    (error_response 400 "Current data integrity check failed. Update aborted.", db).
Proof. exact (post_root_corrupted now req_body db). Qed.

Lemma write_integrity_corrupted_witness :
  let tampered := snd (post_tamper database) in
  post_root "2024-05-01T10:00:00.000Z" [("data", JBool true)] tampered =
    (error_response 400 "Current data integrity check failed. Update aborted.", tampered).
Proof.
  apply (write_integrity_corrupted "2024-05-01T10:00:00.000Z" [("data", JBool true)]
                                   (snd (post_tamper database))).
  vm_compute. discriminate.
Defined.

(** C5. With [n] between 1 and the length of the history: one restore
    removes the last entry, makes its data and integrity the current
    record, shortens the history by one and answers with the new current
    record; [n] restores in a row consume the last [n] entries from the
    most recent backwards, answer with each of them in that order, and
    leave the oldest of them as the current record. *)
Theorem restore_walks_back (db : Database) (n : nat) :
  (1 <= n <= List.length (history db))%nat ->
  (exists before v,
      history db = (before ++ [v])%list /\
      get_backup db = (restored_response v, mkDatabase (current_of v) before) /\
      List.length before = (List.length (history db) - 1)%nat) /\
  (let kept := firstn (List.length (history db) - n) (history db) in
   let consumed := skipn (List.length (history db) - n) (history db) in
   exists oldest,
     nth_error (history db) (List.length (history db) - n) = Some oldest /\
     restore_times n db =
       (map restored_response (rev consumed), mkDatabase (current_of oldest) kept)).
Proof.
  intros Hn. destruct db as [c hist]. cbn [history] in *. split.
  - destruct (@nonempty_snoc _ hist) as (before & v & ->).
    { intros ->. cbn in Hn. lia. }
    exists before, v. rewrite get_backup_snoc, length_app. cbn.
    repeat split. lia.
  - set (k := (List.length hist - n)%nat).
    assert (Hlen : List.length (skipn k hist) = n) by (rewrite length_skipn; lia).
    destruct (skipn k hist) as [|oldest rest] eqn:Hs; [cbn in Hlen; lia|].
    exists oldest. split.
    + rewrite <- (firstn_skipn k hist) at 1. rewrite Hs.
      rewrite nth_error_app2 by (rewrite length_firstn; lia).
      rewrite length_firstn. replace (k - Nat.min k (List.length hist))%nat with 0%nat by lia.
      reflexivity.
    + rewrite <- (firstn_skipn k hist) at 1. rewrite Hs, <- Hlen.
      apply (restore_times_snoc (oldest :: rest)).
Qed.

Lemma restore_walks_back_witness :
  restore_times 2 three_versions =
    ([restored_response (mkVersion "c" "hc" "t3");
      restored_response (mkVersion "b" "hb" "t2")],
     mkDatabase (mkCurrent "b" "hb") [mkVersion "a" "ha" "t1"]).
Proof.
  destruct (restore_walks_back three_versions 2) as (_ & oldest & Hnth & Hrun).
  - cbn. lia.
  - cbn in Hnth. injection Hnth as <-. exact Hrun.
Defined.

(** C6. On a store whose history is empty, a restore fails with the
    no-backup error (404) and leaves the store as it was. *)
Theorem restore_no_backup (db : Database) :
  history db = [] ->
  get_backup db = (error_response 404 "No backup available.", db) /\
  current (snd (get_backup db)) = current db /\
  history (snd (get_backup db)) = [].
Proof.
  intros H. rewrite (get_backup_empty db H). cbn [snd]. auto.
Qed.

Lemma restore_no_backup_witness :
  get_backup database = (error_response 404 "No backup available.", database).
Proof. apply (restore_no_backup database). reflexivity. Defined.

(** C7. In every store reached from the initial one by reads, writes
    (with any request body) and restores, the current record's integrity
    is the digest of its data. *)
Theorem reachable_current_consistent (ops : list Op) :
  integrity (current (run ops database)) = generateHash (data (current (run ops database))).
Proof.
  exact (proj1 (well_bound_run ops database well_bound_database)).
Qed.

(** C8 as stated fails: after a write of the very string the tamper hook
    installs, the hook leaves a record whose stored digest still matches
    its payload. *)
Lemma tamper_can_leave_record_consistent :
  let db := run [Write "2024-05-01T10:00:00.000Z"
                       (write_body "Tampered Data!" (JString (generateHash "Tampered Data!")))]
                database in
  let db' := snd (post_tamper db) in
  generateHash (data (current db')) = integrity (current db').
Proof. vm_compute. reflexivity. Qed.

(** C8, amended. On every store the tamper hook sets the current data to
    its fixed string, leaves the integrity field and the history as they
    were, and, when the stored integrity is not the digest of that fixed
    string, leaves a record whose stored digest does not match its
    payload. *)
Theorem tamper_breaks_binding (db : Database) :
  let db' := snd (post_tamper db) in
  data (current db') = "Tampered Data!" /\
  integrity (current db') = integrity (current db) /\
  history db' = history db /\
  (integrity (current db) <> generateHash "Tampered Data!" ->
   generateHash (data (current db')) <> integrity (current db')).
Proof.
  cbn. repeat split. intros H E. apply H. now symmetry.
Qed.

Lemma tamper_breaks_binding_witness :
  let db' := snd (post_tamper database) in
  data (current db') = "Tampered Data!" /\
  generateHash (data (current db')) <> integrity (current db').
Proof.
  destruct (tamper_breaks_binding database) as (Hd & _ & _ & Hbroken).
  split; [exact Hd | apply Hbroken].
  vm_compute. discriminate.
Defined.

(** C10. The restore handler never takes its 500 branch: popping a
    non-empty history yields an entry, so the answer is the 404 no-backup
    error exactly when the history is empty and the 200 answer carrying
    the restored record otherwise. *)
Theorem restore_never_500 (db : Database) :
  (history db <> [] -> exists p, fst (pop (history db)) = Some p) /\
  ((history db = [] /\ fst (get_backup db) = error_response 404 "No backup available.") \/
   (exists p, history db <> [] /\ fst (pop (history db)) = Some p /\
              fst (get_backup db) = restored_response p)) /\
  status (fst (get_backup db)) <> 500%Z /\
  fst (get_backup db) <> error_response 500 "Failed to restore backup.".
Proof.
  destruct db as [c hist]. cbn [history].
  destruct hist as [|v0 h0].
  - split; [intros H; now destruct H|].
    split; [left; now rewrite get_backup_empty|].
    rewrite get_backup_empty by reflexivity. cbn. split; discriminate.
  - destruct (@nonempty_snoc _ (v0 :: h0)) as (before & v & ->); [discriminate|].
    assert (Hpop : fst (pop (before ++ [v])) = Some v).
    { change (before ++ [v])%list with (push before v). now rewrite pop_push. }
    assert (Hne : (before ++ [v])%list <> []) by (now destruct before).
    rewrite get_backup_snoc. cbn [fst].
    split; [intros _; now exists v|].
    split; [right; exists v; auto|].
    cbn. split; discriminate.
Qed.

Lemma restore_never_500_witness :
  history three_versions <> [] /\
  (exists p, fst (pop (history three_versions)) = Some p) /\
  status (fst (get_backup three_versions)) <> 500%Z.
Proof.
  assert (Hne : history three_versions <> []) by discriminate.
  destruct (restore_never_500 three_versions) as (Hpop & _ & Hstatus & _).
  split; [exact Hne|]. split; [exact (Hpop Hne) | exact Hstatus].
Defined.

End StoreClaims.

(* ================================================================== *)
(** ** Properties of the client *)
(* ================================================================== *)

Module ClientFacts.
Import Client.

Arguments generateHash : simpl never.
Arguments Server.generateHash : simpl never.

(** Both sides render a digest byte the same way. *)
Lemma byte_hex_agree (b : Z) :
  (0 <= b < 256)%Z ->
  padStart2 (toString16 b) =
  String (hex_digit (Z.shiftr b 4)) (String (hex_digit (Z.land b 15)) EmptyString).
Proof.
  intros Hb.
  assert (Hall : forallb (fun n =>
            String.eqb (padStart2 (toString16 (Z.of_nat n)))
                       (String (hex_digit (Z.shiftr (Z.of_nat n) 4))
                               (String (hex_digit (Z.land (Z.of_nat n) 15)) EmptyString)))
            (seq 0 256) = true) by (vm_compute; reflexivity).
  rewrite forallb_forall in Hall.
  specialize (Hall (Z.to_nat b)).
  rewrite Z2Nat.id in Hall by lia.
  apply String.eqb_eq, Hall, in_seq. lia.
Qed.

Lemma be_bytes_range (count : nat) (x : Z) :
  Forall (fun b => 0 <= b < 256)%Z (SHA256.be_bytes count x).
Proof.
  induction count as [|c IH]; cbn [SHA256.be_bytes]; constructor; [|exact IH].
  change 0xff%Z with (Z.ones 8). rewrite Z.land_ones by lia.
  apply Z.mod_pos_bound. reflexivity.
Qed.

Lemma digest_range (msg : list Z) :
  Forall (fun b => 0 <= b < 256)%Z (SHA256.digest msg).
Proof.
  unfold SHA256.digest. cbv zeta.
  generalize (fold_left SHA256.compress
                (SHA256.chunks (List.length (SHA256.pad msg) / 64) 64 (SHA256.pad msg))
                SHA256.initial).
  intros h. cbn [flat_map].
  repeat (apply Forall_app; split; [apply be_bytes_range|]). constructor.
Qed.

Lemma hex_render_agree (bs : list Z) :
  Forall (fun b => 0 <= b < 256)%Z bs ->
  String.concat "" (map (fun byte => padStart2 (toString16 byte)) bs) = hex_encode bs.
Proof.
  unfold hex_encode.
  induction 1 as [|b bs Hb _ IH]; [reflexivity|].
  cbn [map flat_map app string_of_list_ascii]. rewrite <- IH, (byte_hex_agree b Hb).
  destruct bs as [|b' bs']; [reflexivity|].
  cbn [map String.concat]. reflexivity.
Qed.

Lemma generateHash_agree (s : string) :
  generateHash (JString s) = Server.generateHash s.
Proof. apply hex_render_agree, digest_range. Qed.

(** Synchronisation replaces the local copy by the server's current data. *)
Lemma getData_run (w : World) :
  getData w =
  (Returned tt,
   mkWorld (server w) (JString (Server.data (Server.current (server w))))
           (trace w ++ [SetData (JString (Server.data (Server.current (server w))))])).
Proof. reflexivity. Qed.

Lemma restoreBackup_empty (w : World) :
  Server.history (server w) = [] ->
  restoreBackup w =
  (Returned tt,
   mkWorld (server w) (data w) (trace w ++ [Alert "No backup available to restore."])).
Proof.
  intros H. unfold restoreBackup, try_catch, bind, fetch.
  rewrite (ServerFacts.get_backup_empty _ H). reflexivity.
Qed.

Lemma restoreBackup_snoc (c : Server.Current) (h : list Server.Version) (v : Server.Version)
      (local : Json) (tr : list Event) :
  restoreBackup (mkWorld (Server.mkDatabase c (h ++ [v])) local tr) =
  (Returned tt,
   mkWorld (Server.mkDatabase (Server.current_of v) h)
           (JString (Server.version_data v))
           (tr ++ [SetData JUndefined;
                   SetData (JString (Server.version_data v));
                   Alert "Previous backup restored successfully."])).
Proof.
  unfold restoreBackup, try_catch, bind, fetch. cbn [server data trace].
  rewrite ServerFacts.get_backup_snoc. cbn.
  now rewrite <- !app_assoc.
Qed.

(** The restore flow handles everything that is thrown inside it, and only
    ever adds to the trace. *)
Lemma restoreBackup_extends (w : World) :
  exists later, restoreBackup w = (Returned tt, snd (restoreBackup w)) /\
                trace (snd (restoreBackup w)) = (trace w ++ later)%list.
Proof.
  destruct w as [[c hist] local tr].
  destruct hist as [|v0 h0].
  - rewrite restoreBackup_empty by reflexivity. cbn. eauto.
  - destruct (@ServerFacts.nonempty_snoc _ (v0 :: h0)) as (h & v & ->); [discriminate|].
    rewrite restoreBackup_snoc. cbn. eauto.
Qed.

(** The verification, with the three digests named as in the source. *)
Lemma verifyData_run (db : Server.Database) (d : string) (tr : list Event) :
  let w := mkWorld db (JString d) tr in
  let serverHash := Server.integrity (Server.current db) in
  let localHash := generateHash (JString d) in
  let serverDataHash := generateHash (JString (Server.data (Server.current db))) in
  verifyData w =
  if String.eqb serverHash localHash && String.eqb serverHash serverDataHash
  then alert intact_message w
  else (alert tampered_message ;;; restoreBackup) w.
Proof.
  cbv zeta. unfold verifyData, try_catch, bind, fetch, read_data. cbn.
  destruct (_ && _); [reflexivity|].
  destruct (restoreBackup_extends
              (mkWorld db (JString d) (tr ++ [Alert tampered_message]))) as (later & E & _).
  unfold alert, emit. cbn [server data trace]. now rewrite E.
Qed.

Lemma verifyData_intact (db : Server.Database) (d : string) (tr : list Event) :
  Server.integrity (Server.current db) = generateHash (JString d) ->
  Server.integrity (Server.current db)
    = generateHash (JString (Server.data (Server.current db))) ->
  verifyData (mkWorld db (JString d) tr) =
  (Returned tt, mkWorld db (JString d) (tr ++ [Alert intact_message])).
Proof.
  intros H1 H2. pose proof (verifyData_run db d tr) as Hrun. cbv zeta in Hrun.
  rewrite Hrun. apply String.eqb_eq in H1, H2. rewrite H1, H2. reflexivity.
Qed.

Lemma verifyData_tampered (db : Server.Database) (d : string) (tr : list Event) :
  ~ (Server.integrity (Server.current db) = generateHash (JString d) /\
     Server.integrity (Server.current db)
       = generateHash (JString (Server.data (Server.current db)))) ->
  verifyData (mkWorld db (JString d) tr) =
  restoreBackup (mkWorld db (JString d) (tr ++ [Alert tampered_message])).
Proof.
  intros H. pose proof (verifyData_run db d tr) as Hrun. cbv zeta in Hrun.
  rewrite Hrun.
  destruct (String.eqb _ _ && String.eqb _ _) eqn:E; [|reflexivity].
  apply andb_prop in E as [E1 E2]. apply String.eqb_eq in E1, E2. now destruct H.
Qed.

(** A trace names one first alert only. *)
Lemma first_alert_unique (tr l1 l2 : list Event) (m1 m2 : string) :
  (tr ++ Alert m1 :: l1 = tr ++ Alert m2 :: l2)%list -> m1 = m2.
Proof. intros H. apply app_inv_head in H. now injection H. Qed.

End ClientFacts.

(* ================================================================== *)
(** ** The claims about the client *)
(* ================================================================== *)

Module ClientClaims.
Import Client ClientFacts.

(** C1. Whatever the client's local string and the server's store, the
    verification reports Intact exactly when the integrity the server
    asserts equals both the digest of the local data and the digest of the
    server's data; in every other case it reports Tampered and goes on to
    run the restore flow. *)
Theorem verifyData_verdict (db : Server.Database) (d : string) (tr : list Event) :
  let w := mkWorld db (JString d) tr in
  let serverHash := Server.integrity (Server.current db) in
  let localHash := generateHash (JString d) in
  let serverDataHash := generateHash (JString (Server.data (Server.current db))) in
  (classifies w Intact <-> serverHash = localHash /\ serverHash = serverDataHash) /\
  (classifies w Tampered <-> ~ (serverHash = localHash /\ serverHash = serverDataHash)) /\
  (classifies w Intact ->
   verifyData w = (Returned tt, mkWorld db (JString d) (tr ++ [Alert intact_message]))) /\
  (classifies w Tampered ->
   verifyData w = restoreBackup (mkWorld db (JString d) (tr ++ [Alert tampered_message]))).
Proof.
  cbv zeta. unfold classifies. cbn [trace verdict_message].
  set (agree := Server.integrity (Server.current db) = generateHash (JString d) /\
                Server.integrity (Server.current db)
                  = generateHash (JString (Server.data (Server.current db)))).
  assert (Hdec : agree \/ ~ agree).
  { unfold agree.
    destruct (String.eqb_spec (Server.integrity (Server.current db))
                              (generateHash (JString d)));
      destruct (String.eqb_spec (Server.integrity (Server.current db))
                  (generateHash (JString (Server.data (Server.current db)))));
      tauto. }
  destruct Hdec as [Hyes | Hno].
  - (* both digests agree with the asserted one *)
    destruct Hyes as [H1 H2].
    rewrite (verifyData_intact db d tr H1 H2). cbn [snd trace].
    assert (Hintact : exists later,
               (tr ++ [Alert intact_message] = tr ++ Alert intact_message :: later)%list)
      by (now exists []).
    assert (Hnot : ~ exists later,
               (tr ++ [Alert intact_message] = tr ++ Alert tampered_message :: later)%list).
    { intros (later & E). apply first_alert_unique in E. discriminate E. }
    split; [split; [intros _; now split | intros _; exact Hintact]|].
    split; [split; [intros Ht; now destruct Hnot | intros Hn; destruct Hn; now split]|].
    split; [intros _; reflexivity | intros Ht; now destruct Hnot].
  - (* some digest differs *)
    rewrite (verifyData_tampered db d tr Hno).
    destruct (restoreBackup_extends
                (mkWorld db (JString d) (tr ++ [Alert tampered_message])))
      as (later & _ & Hlater).
    cbn [trace] in Hlater. rewrite <- app_assoc in Hlater. cbn [app] in Hlater.
    rewrite Hlater.
    assert (Htampered : exists l,
               (tr ++ Alert tampered_message :: later = tr ++ Alert tampered_message :: l)%list)
      by (now exists later).
    assert (Hnot : ~ exists l,
               (tr ++ Alert tampered_message :: later = tr ++ Alert intact_message :: l)%list).
    { intros (l & E). apply first_alert_unique in E. discriminate E. }
    split; [split; [intros Hi; now destruct Hnot | intros Ha; now destruct Hno]|].
    split; [split; [intros _; exact Hno | intros _; exact Htampered]|].
    split; [intros Hi; now destruct Hnot | intros _; reflexivity].
Qed.

Lemma verifyData_verdict_witness :
  (classifies (mkWorld Server.database (JString "Hello World") []) Intact /\
   verifyData (mkWorld Server.database (JString "Hello World") []) =
     (Returned tt, mkWorld Server.database (JString "Hello World") [Alert intact_message])) /\
  (classifies (mkWorld Server.after_tamper (JString "Updated") []) Tampered /\
   verifyData (mkWorld Server.after_tamper (JString "Updated") []) =
     restoreBackup (mkWorld Server.after_tamper (JString "Updated")
                            [Alert tampered_message])).
Proof.
  split.
  - destruct (verifyData_verdict Server.database "Hello World" []) as (Hiff & _ & Hrun & _).
    assert (Hc : classifies (mkWorld Server.database (JString "Hello World") []) Intact)
      by (apply Hiff; split; vm_compute; reflexivity).
    split; [exact Hc | exact (Hrun Hc)].
  - destruct (verifyData_verdict Server.after_tamper "Updated" []) as (_ & Hiff & _ & Hrun).
    assert (Hc : classifies (mkWorld Server.after_tamper (JString "Updated") []) Tampered)
      by (apply Hiff; intros [_ H]; vm_compute in H; discriminate H).
    split; [exact Hc | exact (Hrun Hc)].
Defined.

(** C9. The restore flow on a store holding one backup: the server answers
    with the restored record under [current], the client's local copy is
    first set to [undefined] (the answer has no top-level [data]), and only
    the synchronisation that follows makes it the data of the new current
    record. *)
Theorem restoreBackup_overwrites_with_undefined :
  let w := mkWorld Server.after_update (JString "Updated") [] in
  let restored :=
    Server.mkVersion "Hello World" (Server.generateHash "Hello World")
                     "2024-05-01T10:00:00.000Z" in
  fst (Server.get_backup (server w)) = Server.restored_response restored /\
  trace (snd (restoreBackup w)) =
    [SetData JUndefined;
     SetData (JString "Hello World");
     Alert "Previous backup restored successfully."] /\
  nth_error (trace (snd (restoreBackup w))) 0 <>
    Some (SetData (JString (Server.version_data restored))) /\
  data (snd (restoreBackup w)) =
    JString (Server.data (Server.current (server (snd (restoreBackup w))))).
Proof.
  cbv zeta. change Server.after_update with
    (Server.mkDatabase (Server.mkCurrent "Updated" (Server.generateHash "Updated"))
       ([] ++ [Server.mkVersion "Hello World" (Server.generateHash "Hello World")
                                "2024-05-01T10:00:00.000Z"])).
  rewrite restoreBackup_snoc. cbn [server snd fst trace data].
  rewrite ServerFacts.get_backup_snoc. cbn.
  repeat split. discriminate.
Qed.

(** The scenario of the specification: load, edit, submit, fault
    injection, verify. The verification restores the initial record. *)
Example tamper_scenario :
  let w0 := snd (getData (mkWorld Server.database (JString "") [])) in
  let w1 := snd (setData (JString "Updated") w0) in
  let w2 := snd (updateData "2024-05-01T10:00:00.000Z" w1) in
  let w3 := mkWorld (snd (Server.post_tamper (server w2))) (data w2) [] in
  let w4 := snd (verifyData w3) in
  server w2 = Server.after_update /\
  server w4 = Server.database /\
  data w4 = JString "Hello World" /\
  trace w4 = [Alert tampered_message;
              SetData JUndefined;
              SetData (JString "Hello World");
              Alert "Previous backup restored successfully."].
Proof. vm_compute. repeat split. Qed.

End ClientClaims.

(* ================================================================== *)
(** ** Further properties of the record store *)
(* ================================================================== *)

Module StoreFacts.
Import Server ServerFacts.

Arguments generateHash : simpl never.

(** A write either leaves the store alone or is the accepted one. *)
Lemma post_root_cases (now : string) (req_body : list (string * Json)) (db : Database) :
  (ok (fst (post_root now req_body db)) = false /\ snd (post_root now req_body db) = db) \/
  (consistent (current db) /\
   exists d,
     lookup JUndefined "data" req_body = JString d /\
     lookup JUndefined "hash" req_body = JString (generateHash d) /\
     post_root now req_body db =
       (message_response "Data updated successfully.",
        mkDatabase (mkCurrent d (generateHash d))
                   (history db ++ [mkVersion (data (current db)) (integrity (current db)) now]))).
Proof.
  destruct (String.eqb_spec (generateHash (data (current db))) (integrity (current db)))
    as [Hc | Hc].
  - symmetry in Hc.
    destruct (lookup JUndefined "data" req_body) as [| | b | d | fs] eqn:Hd;
      try (left; unfold post_root; rewrite Hd, <- Hc, String.eqb_refl; now split).
    rewrite (post_root_checked now req_body db d Hc Hd).
    destruct (strict_eq _ _) eqn:E.
    + right. split; [exact Hc|]. exists d. apply strict_eq_string in E. auto.
    + left. now split.
  - left. rewrite (post_root_corrupted now req_body db Hc). now split.
Qed.

Lemma get_backup_cases (db : Database) :
  (history db = [] /\ get_backup db = (error_response 404 "No backup available.", db)) \/
  (exists h v, history db = (h ++ [v])%list /\
               get_backup db = (restored_response v, mkDatabase (current_of v) h)).
Proof.
  destruct db as [c hist]. cbn [history]. destruct hist as [|v0 h0].
  - left. now rewrite get_backup_empty.
  - right. destruct (@nonempty_snoc _ (v0 :: h0)) as (h & v & ->); [discriminate|].
    exists h, v. now rewrite get_backup_snoc.
Qed.

Lemma serve_failed_unchanged (r : Request) (db : Database) :
  ok (fst (serve r db)) = false -> snd (serve r db) = db.
Proof.
  destruct r as [[|now req_body|]|]; cbn [serve step].
  - reflexivity.
  - destruct (post_root_cases now req_body db) as [[_ H] | (_ & d & _ & _ & H)].
    + intros _. exact H.
    + rewrite H. discriminate.
  - destruct (get_backup_cases db) as [[_ H] | (h & v & _ & H)]; rewrite H.
    + reflexivity.
    + discriminate.
  - discriminate.
Qed.

Lemma archive_bound_serve (r : Request) (db : Database) :
  archive_bound db -> archive_bound (snd (serve r db)).
Proof.
  unfold archive_bound. intros Hh. destruct r as [[|now req_body|]|]; cbn [serve step].
  - exact Hh.
  - destruct (post_root_cases now req_body db) as [[_ H] | (Hc & d & _ & _ & H)];
      rewrite H; [exact Hh|].
    cbn [snd history]. apply Forall_app. split; [exact Hh|].
    constructor; [exact Hc | constructor].
  - destruct (get_backup_cases db) as [[_ H] | (h & v & Hv & H)]; rewrite H; [exact Hh|].
    cbn [snd history]. rewrite Hv in Hh. now apply Forall_app in Hh.
  - exact Hh.
Qed.

Lemma archive_bound_serve_all (rs : list Request) (db : Database) :
  archive_bound db -> archive_bound (serve_all rs db).
Proof.
  revert db. induction rs as [|r rs IH]; intros db Hdb; cbn [serve_all fold_left].
  - exact Hdb.
  - apply IH. now apply archive_bound_serve.
Qed.

Lemma restore_times_exhausted (k : nat) (c : Current) :
  restore_times k (mkDatabase c []) =
  (repeat (error_response 404 "No backup available.") k, mkDatabase c []).
Proof.
  induction k as [|k IH]; [reflexivity|].
  cbn [restore_times repeat]. rewrite get_backup_empty by reflexivity. now rewrite IH.
Qed.

Lemma restore_times_add (a b : nat) (db : Database) :
  restore_times (a + b) db =
  (fst (restore_times a db) ++ fst (restore_times b (snd (restore_times a db))),
   snd (restore_times b (snd (restore_times a db))))%list.
Proof.
  revert db. induction a as [|a IH]; intros db.
  - cbn. now destruct (restore_times b db).
  - cbn [Nat.add restore_times]. destruct (get_backup db) as [r db1].
    rewrite IH. destruct (restore_times a db1) as [rs db2]. cbn [fst snd].
    now destruct (restore_times b db2).
Qed.

(** The renderings of a digest. *)
Lemma be_bytes_length (count : nat) (x : Z) : List.length (SHA256.be_bytes count x) = count.
Proof. induction count as [|c IH]; cbn [SHA256.be_bytes List.length]; congruence. Qed.

Lemma digest_length (msg : list Z) : List.length (SHA256.digest msg) = 32%nat.
Proof.
  unfold SHA256.digest. cbv zeta.
  generalize (fold_left SHA256.compress
                (SHA256.chunks (List.length (SHA256.pad msg) / 64) 64 (SHA256.pad msg))
                SHA256.initial).
  intros h. cbn [flat_map]. rewrite !length_app, !be_bytes_length. reflexivity.
Qed.

Lemma hex_encode_length (bs : list Z) :
  String.length (hex_encode bs) = (2 * List.length bs)%nat.
Proof.
  unfold hex_encode. induction bs as [|b bs IH]; [reflexivity|].
  cbn [flat_map app string_of_list_ascii String.length List.length]. rewrite IH. lia.
Qed.

Lemma byte_digits_lower_hex (b : Z) :
  (0 <= b < 256)%Z ->
  is_lower_hex (hex_digit (Z.shiftr b 4)) = true /\
  is_lower_hex (hex_digit (Z.land b 15)) = true.
Proof.
  intros Hb.
  assert (Hall : forallb (fun n =>
            is_lower_hex (hex_digit (Z.shiftr (Z.of_nat n) 4))
            && is_lower_hex (hex_digit (Z.land (Z.of_nat n) 15)))
            (seq 0 256) = true) by (vm_compute; reflexivity).
  rewrite forallb_forall in Hall.
  specialize (Hall (Z.to_nat b)). rewrite Z2Nat.id in Hall by lia.
  apply andb_prop, Hall, in_seq. lia.
Qed.

Lemma hex_encode_lower_hex (bs : list Z) :
  Forall (fun b => 0 <= b < 256)%Z bs ->
  forallb is_lower_hex (list_ascii_of_string (hex_encode bs)) = true.
Proof.
  unfold hex_encode. rewrite list_ascii_of_string_of_list_ascii.
  induction 1 as [|b bs Hb _ IH]; [reflexivity|].
  cbn [flat_map app forallb].
  destruct (byte_digits_lower_hex b Hb) as [-> ->]. exact IH.
Qed.

End StoreFacts.

Module StoreProperties.
Import Server ServerFacts StoreFacts.

(** X2. The digest of any string is 64 characters long, each one of
    [0-9a-f]; so an integrity field written by the store always has that
    shape. *)
Theorem generateHash_shape (s : string) :
  String.length (generateHash s) = 64%nat /\
  forallb is_lower_hex (list_ascii_of_string (generateHash s)) = true.
Proof.
  unfold generateHash. split.
  - now rewrite hex_encode_length, digest_length.
  - apply hex_encode_lower_hex, ClientFacts.digest_range.
Qed.

(** X3. A write is answered with success exactly when the current record
    is consistent, the submitted data is a string, and the submitted hash
    is the string that is the digest of that data. *)
Theorem write_accepted_iff (now : string) (req_body : list (string * Json)) (db : Database) :
  ok (fst (post_root now req_body db)) = true <->
  (consistent (current db) /\
   exists d, lookup JUndefined "data" req_body = JString d /\
             lookup JUndefined "hash" req_body = JString (generateHash d)).
Proof.
  destruct (post_root_cases now req_body db) as [[Hfail _] | (Hc & d & Hd & Hh & Hrun)].
  - split; [rewrite Hfail; discriminate|].
    intros (Hc & d & Hd & Hh). exfalso.
    rewrite (post_root_checked now req_body db d Hc Hd), Hh in Hfail.
    replace (strict_eq (JString (generateHash d)) (JString (generateHash d))) with true
      in Hfail by (symmetry; now apply strict_eq_string).
    discriminate Hfail.
  - split; [intros _; split; [exact Hc | now exists d]|].
    intros _. now rewrite Hrun.
Qed.

Lemma write_accepted_iff_witness :
  ok (fst (post_root "2024-05-01T10:00:00.000Z"
                     (write_body "Updated" (JString (generateHash "Updated")))
                     database)) = true.
Proof.
  apply (write_accepted_iff "2024-05-01T10:00:00.000Z"
           (write_body "Updated" (JString (generateHash "Updated"))) database).
  split; [reflexivity|]. exists "Updated". split; reflexivity.
Defined.

(** X4. Whatever the request (read, write, restore or the tamper hook), an
    answer that is not a success leaves the current record and the history
    exactly as they were. *)
Theorem failed_request_changes_nothing (r : Request) (db : Database) :
  ok (fst (serve r db)) = false -> snd (serve r db) = db.
Proof. exact (serve_failed_unchanged r db). Qed.

Lemma failed_request_changes_nothing_witness :
  snd (serve (Call (Write "2024-05-01T10:00:00.000Z" [("data", JNull)])) database) = database.
Proof.
  apply (failed_request_changes_nothing
           (Call (Write "2024-05-01T10:00:00.000Z" [("data", JNull)])) database).
  vm_compute. reflexivity.
Defined.

(** X5. A restore right after an accepted write undoes it: the store is
    again exactly the one before the write, current record and history. *)
Theorem restore_undoes_write (now : string) (req_body : list (string * Json)) (db : Database) :
  ok (fst (post_root now req_body db)) = true ->
  get_backup (snd (post_root now req_body db)) =
  (restored_response (mkVersion (data (current db)) (integrity (current db)) now), db).
Proof.
  intros Hok.
  destruct (post_root_cases now req_body db) as [[Hfail _] | (_ & d & _ & _ & Hrun)].
  - rewrite Hfail in Hok. discriminate Hok.
  - rewrite Hrun. cbn [snd]. rewrite get_backup_snoc.
    destruct db as [[d0 i0] hist]. reflexivity.
Qed.

Lemma restore_undoes_write_witness :
  snd (get_backup after_update) = database.
Proof.
  unfold after_update.
  rewrite (restore_undoes_write "2024-05-01T10:00:00.000Z"
             (write_body "Updated" (JString (generateHash "Updated"))) database).
  - reflexivity.
  - vm_compute. reflexivity.
Defined.

(** X6. Whatever requests were served since start-up, the tamper hook
    included, every version in the history carries the digest of its own
    data: a tampered record is never archived. *)
Theorem tampered_record_never_archived (rs : list Request) :
  Forall (fun v => version_integrity v = generateHash (version_data v))
         (history (serve_all rs database)).
Proof.
  apply (archive_bound_serve_all rs database). constructor.
Qed.

(** X7. Consequently a successful restore always installs a consistent
    current record, also when the record it replaces was tampered with. *)
Theorem restore_installs_consistent_record (rs : list Request) :
  let db := serve_all rs database in
  history db <> [] ->
  ok (fst (get_backup db)) = true /\
  consistent (current (snd (get_backup db))).
Proof.
  intros db Hne.
  pose proof (archive_bound_serve_all rs database (Forall_nil _)) as Hb.
  fold db in Hb. unfold archive_bound in Hb.
  destruct (get_backup_cases db) as [[He _] | (h & v & Hv & Hrun)]; [contradiction|].
  rewrite Hrun. split; [reflexivity|]. cbn [snd current].
  rewrite Hv in Hb. apply Forall_app in Hb as [_ Hb]. now inversion Hb.
Qed.

Lemma restore_installs_consistent_record_witness :
  consistent (current (snd (get_backup after_tamper))).
Proof.
  apply (restore_installs_consistent_record
           [Call (Write "2024-05-01T10:00:00.000Z"
                        (write_body "Updated" (JString (generateHash "Updated"))));
            Tamper]).
  vm_compute. discriminate.
Defined.

(** X8. Restores beyond the length of the history: the first ones consume
    the whole history, most recent first, every further one is answered
    404, and the store ends with the oldest version as current record (the
    current record itself when there was no history) and no history. *)
Theorem restore_past_history (k : nat) (db : Database) :
  restore_times (List.length (history db) + k) db =
  ((map restored_response (rev (history db))
    ++ repeat (error_response 404 "No backup available.") k)%list,
   mkDatabase (match history db with
               | [] => current db
               | oldest :: _ => current_of oldest
               end) []).
Proof.
  destruct db as [c hist]. cbn [history current].
  rewrite restore_times_add.
  pose proof (restore_times_snoc hist c []) as Hall. cbn [app] in Hall.
  rewrite Hall. cbn [fst snd]. now rewrite restore_times_exhausted.
Qed.

End StoreProperties.

(* ================================================================== *)
(** ** Further properties of the client *)
(* ================================================================== *)

Module ClientRuns.
Import Client ClientFacts.

Arguments generateHash : simpl never.
Arguments Server.generateHash : simpl never.



Lemma updateData_undefined_run (now : string) (db : Server.Database) (tr : list Event) :
  Server.consistent (Server.current db) ->
  updateData now (mkWorld db JUndefined tr) =
  (Returned tt,
   mkWorld db JUndefined
           (tr ++ [ConsoleError "Error updating data:"; Alert "Failed to update data."])).
Proof.
  intros Hc. unfold updateData, try_catch, bind, fetch, read_data, Server.post_root.
  cbn [server data trace lookup String.eqb Ascii.eqb Bool.eqb].
  unfold Server.consistent in Hc. rewrite <- Hc, String.eqb_refl.
  cbn. unfold alert, emit. cbn [server data trace]. now rewrite <- app_assoc.
Qed.

(** The verification in terms of the server's own digest function. *)
Lemma verifyData_intact_run (db : Server.Database) (d : string) (tr : list Event) :
  Server.integrity (Server.current db) = Server.generateHash d ->
  Server.consistent (Server.current db) ->
  verifyData (mkWorld db (JString d) tr) =
  (Returned tt, mkWorld db (JString d) (tr ++ [Alert intact_message])).
Proof.
  intros H1 H2. apply verifyData_intact; now rewrite generateHash_agree.
Qed.

Lemma verifyData_tampered_run (db : Server.Database) (d : string) (tr : list Event) :
  ~ (Server.integrity (Server.current db) = Server.generateHash d /\
     Server.consistent (Server.current db)) ->
  verifyData (mkWorld db (JString d) tr) =
  restoreBackup (mkWorld db (JString d) (tr ++ [Alert tampered_message])).
Proof.
  intros H. apply verifyData_tampered. now rewrite !generateHash_agree.
Qed.

End ClientRuns.

Module ClientProperties.
Import Client ClientFacts ClientRuns.

(** X1. On every string the client's digest (bytes rendered one by one
    with [toString(16)] and [padStart]) is the server's digest (the
    library's hexadecimal rendering). *)
Theorem client_and_server_hash_agree (s : string) :
  generateHash (JString s) = Server.generateHash s.
Proof. exact (generateHash_agree s). Qed.





(** X11. While the local copy is [undefined], submitting to a consistent
    store sends no data, the server's handler throws, and the client ends
    in its catch-all: an error on the console, the generic failure alert,
    and nothing changed. *)
Theorem submit_undefined_fails (now : string) (db : Server.Database) (tr : list Event) :
  Server.consistent (Server.current db) ->
  fst (Server.post_root now [("data", JUndefined);
                             ("hash", JString (generateHash JUndefined))] db) =
    Server.uncaught /\
  updateData now (mkWorld db JUndefined tr) =
  (Returned tt,
   mkWorld db JUndefined
           (tr ++ [ConsoleError "Error updating data:"; Alert "Failed to update data."])).
Proof.
  intros Hc. split; [|exact (updateData_undefined_run now db tr Hc)].
  unfold Server.post_root. cbn [lookup String.eqb Ascii.eqb Bool.eqb].
  unfold Server.consistent in Hc. now rewrite <- Hc, String.eqb_refl.
Qed.

Lemma submit_undefined_fails_witness :
  updateData "2024-05-01T10:00:00.000Z" (mkWorld Server.database JUndefined []) =
  (Returned tt,
   mkWorld Server.database JUndefined
           [ConsoleError "Error updating data:"; Alert "Failed to update data."]).
Proof.
  apply (submit_undefined_fails "2024-05-01T10:00:00.000Z" Server.database []).
  reflexivity.
Defined.

(** X12. In every store reached from the initial one by reads, writes and
    restores, a client whose local copy is the store's current data gets
    the Intact verdict, and the verification changes neither the store nor
    the local copy. *)
Theorem verify_intact_when_in_sync (ops : list Server.Op) (tr : list Event) :
  let db := Server.run ops Server.database in
  let local := JString (Server.data (Server.current db)) in
  verifyData (mkWorld db local tr) =
  (Returned tt, mkWorld db local (tr ++ [Alert intact_message])).
Proof.
  cbv zeta.
  destruct (ServerFacts.well_bound_run ops Server.database ServerFacts.well_bound_database)
    as [Hc _].
  now apply verifyData_intact_run.
Qed.

(** X13. Whenever the asserted integrity differs from the digest of the
    local copy or from the digest of the server's data, and the store has a
    backup, the verification pops the latest backup: it becomes the
    store's current record and, after the synchronisation, the local copy.
    This holds just as well when the store is consistent and only the
    local copy differs. *)
Theorem verify_restores_latest_backup
        (c : Server.Current) (h : list Server.Version) (v : Server.Version)
        (d : string) (tr : list Event) :
  ~ (Server.integrity c = Server.generateHash d /\ Server.consistent c) ->
  verifyData (mkWorld (Server.mkDatabase c (h ++ [v])) (JString d) tr) =
  (Returned tt,
   mkWorld (Server.mkDatabase (Server.current_of v) h)
           (JString (Server.version_data v))
           (tr ++ [Alert tampered_message;
                   SetData JUndefined;
                   SetData (JString (Server.version_data v));
                   Alert "Previous backup restored successfully."])).
Proof.
  intros H.
  rewrite (verifyData_tampered_run (Server.mkDatabase c (h ++ [v])) d tr H).
  rewrite restoreBackup_snoc. now rewrite <- app_assoc.
Qed.

Lemma verify_restores_latest_backup_witness :
  server (snd (verifyData (mkWorld Server.after_update (JString "Unsaved edit") []))) =
  Server.database.
Proof.
  change Server.after_update with
    (Server.mkDatabase (Server.mkCurrent "Updated" (Server.generateHash "Updated"))
       ([] ++ [Server.mkVersion "Hello World" (Server.generateHash "Hello World")
                                "2024-05-01T10:00:00.000Z"])).
  rewrite (verify_restores_latest_backup _ [] _ "Unsaved edit" []).
  - reflexivity.
  - intros [H _]. vm_compute in H. discriminate H.
Defined.

(** X14. The same disagreement on a store without any backup: the user is
    told that data was tampered with and that there is no backup, and the
    store and the local copy stay as they are. *)
Theorem verify_tampered_without_backup (db : Server.Database) (d : string) (tr : list Event) :
  ~ (Server.integrity (Server.current db) = Server.generateHash d /\
     Server.consistent (Server.current db)) ->
  Server.history db = [] ->
  verifyData (mkWorld db (JString d) tr) =
  (Returned tt,
   mkWorld db (JString d)
           (tr ++ [Alert tampered_message; Alert "No backup available to restore."])).
Proof.
  intros H Hempty.
  rewrite (verifyData_tampered_run db d tr H).
  rewrite restoreBackup_empty by exact Hempty.
  cbn [server data trace]. now rewrite <- app_assoc.
Qed.

Lemma verify_tampered_without_backup_witness :
  server (snd (verifyData (mkWorld (snd (Server.post_tamper Server.database))
                                   (JString "Hello World") []))) =
  snd (Server.post_tamper Server.database).
Proof.
  rewrite (verify_tampered_without_backup
             (snd (Server.post_tamper Server.database)) "Hello World" []).
  - reflexivity.
  - intros [_ H]. unfold Server.consistent in H. vm_compute in H. discriminate H.
  - reflexivity.
Defined.



(** X16. Whatever requests the server has served, the tamper hook
    included: when its current record is not consistent and it has a
    backup, a verification from any local string ends with a consistent
    current record on the server and its data as the local copy. *)
Theorem verify_repairs_tampered_store
        (rs : list Server.Request) (d : string) (tr : list Event) :
  let db := Server.serve_all rs Server.database in
  ~ Server.consistent (Server.current db) ->
  Server.history db <> [] ->
  let w' := snd (verifyData (mkWorld db (JString d) tr)) in
  Server.consistent (Server.current (server w')) /\
  data w' = JString (Server.data (Server.current (server w'))) /\
  Server.history (server w') = removelast (Server.history db).
Proof.
  intros db Hbad Hne.
  pose proof (StoreFacts.archive_bound_serve_all rs Server.database (Forall_nil _)) as Hb.
  fold db in Hb. unfold Server.archive_bound in Hb.
  destruct db as [c hist]. cbn [Server.current Server.history] in *.
  destruct (ServerFacts.nonempty_snoc hist Hne) as (h & v & ->).
  cbv zeta.
  rewrite (verifyData_tampered_run (Server.mkDatabase c (h ++ [v])) d tr)
    by (intros [_ H]; exact (Hbad H)).
  rewrite restoreBackup_snoc. cbn [snd server data Server.current Server.history].
  apply Forall_app in Hb as [_ Hv]. inversion Hv; subst.
  rewrite removelast_last. repeat split. assumption.
Qed.

Lemma verify_repairs_tampered_store_witness :
  Server.consistent
    (Server.current (server (snd (verifyData (mkWorld Server.after_tamper
                                                      (JString "Updated") []))))).
Proof.
  apply (verify_repairs_tampered_store
           [Server.Call (Server.Write "2024-05-01T10:00:00.000Z"
                           (Server.write_body "Updated"
                              (JString (Server.generateHash "Updated"))));
            Server.Tamper] "Updated" []).
  - unfold Server.consistent. vm_compute. discriminate.
  - vm_compute. discriminate.
Defined.

End ClientProperties.
